(** * Access-key validation (backend/access.py)

    A shallow embedding of [backend/access.py]: the three functions
    [_get_access_key_path], [_load_access_key] (wrapped in
    [functools.lru_cache(maxsize=1)]) and [validate_access_key], over an
    explicit model of what they observe (the process environment, the
    file system, the JSON decoder) and of the one piece of state they
    own (the memo cell of the cache decorator). *)

From Stdlib Require Import ZArith String Ascii List Lia.
From stdpp Require Import base option gmap strings list.

Local Open Scope string_scope.
Local Open Scope Z_scope.
Local Set Warnings "-register-all".

(** ** Python values that [json.loads] can return *)

(** A Python float obtained from a JSON document is the double nearest
    to the decimal literal [(-1)^neg * m * 10^e], or one of the
    non-standard literals [NaN], [Infinity], [-Infinity]. *)
Inductive pyfloat : Type :=
| FNaN
| FInf (neg : bool)
| FDec (neg : bool) (m : N) (e : Z).

Inductive pyvalue : Type :=
| PyNone
| PyBool (b : bool)
| PyInt (z : Z)
| PyFloat (f : pyfloat)
| PyStr (s : string)
| PyList (l : list pyvalue)
| PyDict (d : gmap string pyvalue).

(** [bool(x)] for a float: everything but [0.0] and [-0.0].  A decimal
    literal rounds (to nearest, ties to even) to zero exactly when its
    magnitude is at most [2^-1075], half the least subnormal double. *)
Definition float_truthy (f : pyfloat) : bool :=
  match f with
  | FNaN => true
  | FInf _ => true
  | FDec _ m e =>
      if (m =? 0)%N then false
      else if 0 <=? e then true
      else 10 ^ (- e) <? Z.of_N m * 2 ^ 1075
  end.

(** Python truthiness, the test behind [if not key]. *)
Definition truthy (v : pyvalue) : bool :=
  match v with
  | PyNone => false
  | PyBool b => b
  | PyInt z => negb (z =? 0)
  | PyFloat f => float_truthy f
  | PyStr s => negb (String.eqb s EmptyString)
  | PyList l => match l with [] => false | _ :: _ => true end
  | PyDict d => negb (bool_decide (d = ∅))
  end.

(** Truthiness of an [Optional[str]]: [None] and the empty string are falsy. *)
Definition truthy_opt (o : option string) : bool :=
  match o with
  | None => false
  | Some s => negb (String.eqb s EmptyString)
  end.

(** [type(v).__name__] *)
Definition type_name (v : pyvalue) : string :=
  match v with
  | PyNone => "NoneType"
  | PyBool _ => "bool"
  | PyInt _ => "int"
  | PyFloat _ => "float"
  | PyStr _ => "str"
  | PyList _ => "list"
  | PyDict _ => "dict"
  end.

(** [s != v] for a [str] on the left: values of another type are never
    equal to a string, two strings are compared character by character. *)
Definition str_ne (s : string) (v : pyvalue) : bool :=
  match v with
  | PyStr t => negb (String.eqb s t)
  | _ => true
  end.

(** ** Exceptions *)

(** Why [os.stat] can fail on a path, other than by reporting that the
    path is missing (ENOENT, ENOTDIR, EBADF and ELOOP, which
    [Path.exists] answers with [False]). *)
Inductive stat_error : Type :=
| EACCES
| ENAMETOOLONG
| EIO
| ENOMEM
| EOVERFLOW.

(** Why [json.loads] can fail on a text, other than by rejecting it as
    malformed: values nested deeper than the interpreter has room for,
    or an integer literal longer than the interpreter converts. *)
Inductive decoder_fault : Type :=
| TooDeep
| TooManyDigits.

Inductive exn : Type :=
| HTTPException (status_code : Z) (detail : string)
| JSONDecodeError
| RecursionError
| ValueError
| AttributeError (ty attr : string)
| FileNotFoundError (p : string)
| IsADirectoryError (p : string)
| PermissionError (p : string)
| OSError (e : stat_error) (p : string)
| UnicodeDecodeError.

(** The exception class of a failed [os.stat]. *)
Definition stat_exn (e : stat_error) (p : string) : exn :=
  match e with
  | EACCES => PermissionError p
  | _ => OSError e p
  end.

(** The exception class of a decoder fault. *)
Definition fault_exn (f : decoder_fault) : exn :=
  match f with
  | TooDeep => RecursionError
  | TooManyDigits => ValueError
  end.

(** [fastapi.status] *)
Definition HTTP_403_FORBIDDEN : Z := 403.
Definition HTTP_500_INTERNAL_SERVER_ERROR : Z := 500.

Inductive res (A : Type) : Type :=
| Ok (a : A)
| Raise (e : exn).
Arguments Ok {A} a.
Arguments Raise {A} e.

(** The two contracted error kinds of the specification. *)
Definition is_configuration_error (e : exn) : bool :=
  match e with
  | HTTPException c _ => c =? HTTP_500_INTERNAL_SERVER_ERROR
  | _ => false
  end.

Definition is_auth_error (e : exn) : bool :=
  match e with
  | HTTPException c _ => c =? HTTP_403_FORBIDDEN
  | _ => false
  end.

(** ** The world the module runs in *)

(** [pathlib.Path] on a POSIX system: the root (no slash, one slash,
    or exactly two) and the components between slashes, without the
    empty ones and the single dots.  Two paths are equal when these
    are. *)
Record Path : Type := PosixPath {
  path_root : string;
  path_parts : list string
}.

Fixpoint lstrip_slashes (s : string) : nat * string :=
  match s with
  | String "/"%char r => let '(n, r') := lstrip_slashes r in (S n, r')
  | _ => (O, s)
  end.

Fixpoint split_slash (s : string) : list string :=
  match s with
  | EmptyString => [EmptyString]
  | String c r =>
      if (c =? "/")%char then EmptyString :: split_slash r
      else match split_slash r with
           | h :: t => String c h :: t
           | [] => [String c EmptyString]
           end
  end.

Fixpoint join_slash (l : list string) : string :=
  match l with
  | [] => EmptyString
  | [x] => x
  | x :: l' => x ++ "/" ++ join_slash l'
  end.

Definition is_component (x : string) : bool :=
  negb (String.eqb x EmptyString) && negb (String.eqb x ".").

(** [Path(s)] *)
Definition MkPath (s : string) : Path :=
  let '(n, rel) := lstrip_slashes s in
  {| path_root := match n with
                  | O => EmptyString
                  | S (S O) => "//"
                  | _ => "/"
                  end;
     path_parts := List.filter is_component (split_slash rel) |}.

(** [str(p)], the text handed to the operating system. *)
Definition path_str (p : Path) : string :=
  match path_root p, path_parts p with
  | EmptyString, [] => "."
  | r, ps => r ++ join_slash ps
  end.

(** What a path names, when [os.stat] succeeds on it. *)
Inductive node : Type :=
| Directory
| Unreadable
| Undecodable
| TextFile (contents : string).

(** What [os.stat] finds at a path: a node, or a failure.  A path
    absent from [files] is reported missing. *)
Inductive entry : Type :=
| Present (n : node)
| StatFails (e : stat_error).

Record World : Type := {
  environ : gmap string string;
  files : gmap string entry
}.

(** The memo cell of [lru_cache(maxsize=1)] around a function without
    arguments: empty, or the value of the one successful call. *)
Abbreviation Cache := (option pyvalue).

(** Observable reads, in program order. *)
Inductive event : Type :=
| EvGetenv (name : string)
| EvExists (p : Path)
| EvReadText (p : Path).

Record Out (A : Type) : Type := MkOut {
  result : res A;
  cache_after : Cache;
  trace : list event
}.
Arguments MkOut {A} _ _ _.
Arguments result {A} _.
Arguments cache_after {A} _.
Arguments trace {A} _.

(** ** A state-and-exception monad with a read log *)

Definition M (A : Type) : Type := World -> Cache -> Out A.

Definition ret {A} (a : A) : M A := fun _ c => MkOut (Ok a) c [].

Definition raise {A} (e : exn) : M A := fun _ c => MkOut (Raise e) c [].

Definition bind {A B} (m : M A) (k : A -> M B) : M B :=
  fun w c =>
    match m w c with
    | MkOut (Ok a) c1 t1 =>
        match k a w c1 with
        | MkOut r c2 t2 => MkOut r c2 (t1 ++ t2)
        end
    | MkOut (Raise e) c1 t1 => MkOut (Raise e) c1 t1
    end.

(** [try: m  except <handles> as exc: handler exc] *)
Definition try_except {A} (m : M A) (handles : exn -> bool) (handler : exn -> M A) : M A :=
  fun w c =>
    match m w c with
    | MkOut (Ok a) c1 t1 => MkOut (Ok a) c1 t1
    | MkOut (Raise e) c1 t1 =>
        if handles e then
          match handler e w c1 with
          | MkOut r c2 t2 => MkOut r c2 (t1 ++ t2)
          end
        else MkOut (Raise e) c1 t1
    end.

Declare Scope py_scope.
Delimit Scope py_scope with py.
Notation "x <- m ;; k" := (bind m (fun x => k))
  (at level 100, m at next level, right associativity) : py_scope.
Notation "m ;;; k" := (bind m (fun _ => k))
  (at level 100, right associativity) : py_scope.
Local Open Scope py_scope.

(** ** Library calls *)

(** [os.getenv(name)] *)
Definition getenv (name : string) : M (option string) :=
  fun w c => MkOut (Ok (environ w !! name)) c [EvGetenv name].

(** [path.exists()]: [os.stat], with a missing path answered by
    [False] and any other failure raised. *)
Definition exists_ (p : Path) : M bool :=
  fun w c =>
    let r := match files w !! path_str p with
             | Some (Present _) => Ok true
             | Some (StatFails e) => Raise (stat_exn e (path_str p))
             | None => Ok false
             end in
    MkOut r c [EvExists p].

(** [path.read_text()] *)
Definition read_text (p : Path) : M string :=
  fun w c =>
    let r := match files w !! path_str p with
             | Some (Present (TextFile s)) => Ok s
             | Some (Present Directory) => Raise (IsADirectoryError (path_str p))
             | Some (Present Unreadable) => Raise (PermissionError (path_str p))
             | Some (Present Undecodable) => Raise UnicodeDecodeError
             | Some (StatFails e) => Raise (stat_exn e (path_str p))
             | None => Raise (FileNotFoundError (path_str p))
             end in
    MkOut r c [EvReadText p].

(** [data.get(key)]: a dict method; on any other value the attribute
    lookup itself fails. *)
Definition get (data : pyvalue) (key : string) : M pyvalue :=
  match data with
  | PyDict d => ret (default PyNone (d !! key))
  | _ => raise (AttributeError (type_name data) "get")
  end.

(** [functools.lru_cache(maxsize=1)] on a function of no arguments: a
    hit returns the stored value without running the body; a miss runs
    the body and stores its value only when it returns normally. *)
Definition lru_cache (body : M pyvalue) : M pyvalue :=
  fun w c =>
    match c with
    | Some v => MkOut (Ok v) c []
    | None =>
        match body w None with
        | MkOut (Ok v) _ t => MkOut (Ok v) (Some v) t
        | MkOut (Raise e) _ t => MkOut (Raise e) None t
        end
    end.

(** What [json.loads] does with a text: it returns a value, rejects
    the text with [json.JSONDecodeError], or fails for another reason. *)
Inductive decoded : Type :=
| Decoded (v : pyvalue)
| Malformed
| Faulted (f : decoder_fault).

Definition catches_JSONDecodeError (e : exn) : bool :=
  match e with
  | JSONDecodeError => true
  | _ => false
  end.

(** ** The module *)

Section Access.

(** The behaviour of [json.loads] on each text. *)
Variable decoder : string -> decoded.

Definition json_loads (s : string) : M pyvalue :=
  match decoder s with
  | Decoded v => ret v
  | Malformed => raise JSONDecodeError
  | Faulted f => raise (fault_exn f)
  end.

Definition _get_access_key_path : M Path :=
  configured_path <- getenv "CHAT_ACCESS_KEY_PATH";;
  match configured_path with
  | Some p => if truthy_opt configured_path then ret (MkPath p)
              else ret (MkPath "access_key.json")
  | None => ret (MkPath "access_key.json")
  end.

(** The body of [_load_access_key], before the decorator. *)
Definition _load_access_key_body : M pyvalue :=
  path <- _get_access_key_path;;
  ex <- exists_ path;;
  (if negb ex then
     raise (HTTPException HTTP_500_INTERNAL_SERVER_ERROR
              "Access key file not found on the server.")
   else ret tt);;;
  data <- try_except
            (text <- read_text path;; json_loads text)
            catches_JSONDecodeError
            (fun exc => raise (HTTPException HTTP_500_INTERNAL_SERVER_ERROR
                                 "Invalid access key JSON configuration."));;
  key <- get data "access_key";;
  (if negb (truthy key) then
     raise (HTTPException HTTP_500_INTERNAL_SERVER_ERROR
              "Access key missing in configuration.")
   else ret tt);;;
  ret key.

Definition _load_access_key : M pyvalue := lru_cache _load_access_key_body.

Definition validate_access_key (provided_key : option string) : M unit :=
  match provided_key with
  | Some k =>
      if negb (truthy_opt provided_key) then
        raise (HTTPException HTTP_403_FORBIDDEN "Missing access key.")
      else
        expected_key <- _load_access_key;;
        if str_ne k expected_key then
          raise (HTTPException HTTP_403_FORBIDDEN "Invalid access key.")
        else ret tt
  | None => raise (HTTPException HTTP_403_FORBIDDEN "Missing access key.")
  end.

End Access.

(** ** A reference decoder

    A decoder for JSON texts in the way [json.loads] reads them
    (whitespace, the three literals, [NaN] and the infinities, numbers,
    strings with escapes in strict mode, arrays, objects with the last
    duplicate key winning, nothing but whitespace after the value, the
    two limits of the interpreter).
    Texts are byte strings; a [\u] escape is stored in UTF-8.  The
    theorems below hold for every decoder; this one instantiates them on
    concrete configuration files. *)
Module Json.

Local Open Scope char_scope.

Definition is_ws (c : ascii) : bool :=
  (c =? " ") || (c =? "009") || (c =? "010") || (c =? "013").

Fixpoint skip_ws (s : string) : string :=
  match s with
  | String c r => if is_ws c then skip_ws r else s
  | EmptyString => s
  end.

Definition digit_val (c : ascii) : option N :=
  let n := N_of_ascii c in
  if ((48 <=? n) && (n <=? 57))%N then Some (n - 48)%N else None.

Definition hex_val (c : ascii) : option N :=
  let n := N_of_ascii c in
  if ((48 <=? n) && (n <=? 57))%N then Some (n - 48)%N
  else if ((97 <=? n) && (n <=? 102))%N then Some (n - 87)%N
  else if ((65 <=? n) && (n <=? 70))%N then Some (n - 55)%N
  else None.

(** The longest run of decimal digits at the front of [s]: its value
    after [acc], how many digits it has, and the rest. *)
Fixpoint digits (s : string) (acc : N) (count : Z) : N * Z * string :=
  match s with
  | String c r =>
      match digit_val c with
      | Some d => digits r (10 * acc + d)%N (count + 1)%Z
      | None => (acc, count, s)
      end
  | EmptyString => (acc, count, s)
  end.

(** Four hexadecimal digits. *)
Definition hex4 (s : string) : option (N * string) :=
  match s with
  | String a (String b (String c (String d r))) =>
      match hex_val a, hex_val b, hex_val c, hex_val d with
      | Some x, Some y, Some z, Some t => Some (((x * 16 + y) * 16 + z) * 16 + t, r)%N
      | _, _, _, _ => None
      end
  | _ => None
  end.

Definition byte (n : N) : ascii := ascii_of_N n.

Definition utf8 (cp : N) (tail : string) : string :=
  (if cp <? 128 then String (byte cp) tail
   else if cp <? 2048 then
     String (byte (192 + cp / 64)) (String (byte (128 + cp mod 64)) tail)
   else if cp <? 65536 then
     String (byte (224 + cp / 4096))
       (String (byte (128 + (cp / 64) mod 64)) (String (byte (128 + cp mod 64)) tail))
   else
     String (byte (240 + cp / 262144))
       (String (byte (128 + (cp / 4096) mod 64))
          (String (byte (128 + (cp / 64) mod 64)) (String (byte (128 + cp mod 64)) tail))))%N.

(** After [\uXXXX] with value [hi]: a high surrogate followed by an
    escaped low surrogate is one code point, anything else stands for
    itself. *)
Definition surrogate (hi : N) (r : string) : N * string :=
  if ((55296 <=? hi) && (hi <=? 56319))%N then
    match r with
    | String "\" (String "u" r') =>
        match hex4 r' with
        | Some (lo, r'') =>
            if ((56320 <=? lo) && (lo <=? 57343))%N
            then (65536 + (hi - 55296) * 1024 + (lo - 56320), r'')%N
            else (hi, r)
        | None => (hi, r)
        end
    | _ => (hi, r)
    end
  else (hi, r).

(** The body of a string, after its opening quote. *)
Fixpoint scanstring (fuel : nat) (s : string) : option (string * string) :=
  match fuel with
  | O => None
  | S fuel' =>
      match s with
      | EmptyString => None
      | String "034" r => Some (EmptyString, r)
      | String "\" EmptyString => None
      | String "\" (String e r) =>
          let simple (c : ascii) :=
            match scanstring fuel' r with
            | Some (str, rest) => Some (String c str, rest)
            | None => None
            end in
          if e =? "034" then simple "034"
          else if e =? "\" then simple "\"
          else if e =? "/" then simple "/"
          else if e =? "b" then simple "008"
          else if e =? "f" then simple "012"
          else if e =? "n" then simple "010"
          else if e =? "r" then simple "013"
          else if e =? "t" then simple "009"
          else if e =? "u" then
            match hex4 r with
            | Some (hi, r1) =>
                let '(cp, r2) := surrogate hi r1 in
                match scanstring fuel' r2 with
                | Some (str, rest) => Some (utf8 cp str, rest)
                | None => None
                end
            | None => None
            end
          else None
      | String c r =>
          if (N_of_ascii c <? 32)%N then None
          else
            match scanstring fuel' r with
            | Some (str, rest) => Some (String c str, rest)
            | None => None
            end
      end
  end.

Inductive parse (A : Type) : Type :=
| Parsed (a : A) (rest : string)
| Bad
| Stop (f : decoder_fault).
Arguments Parsed {A} a rest.
Arguments Bad {A}.
Arguments Stop {A} f.

(** A number at the front of [s]: an optional minus sign, then a
    single 0 or a digit run not starting with 0, then optionally a
    point with digits, then optionally e or E with an optional sign
    and digits.  A point or an exponent makes it a float; without them
    it is an integer, which the interpreter refuses to convert when it
    has more than [max_digits] digits. *)
Definition number (max_digits : Z) (s : string) : parse pyvalue :=
  let '(neg, s1) := match s with
                    | String "-" r => (true, r)
                    | _ => (false, s)
                    end in
  let int_part :=
    match s1 with
    | String "0" r => Some (0%N, 1%Z, r)
    | String c _ =>
        match digit_val c with
        | Some _ => Some (digits s1 0%N 0%Z)
        | None => None
        end
    | EmptyString => None
    end in
  match int_part with
  | None => Bad
  | Some (n, len, s2) =>
      let '(m, fracn, s3, has_frac) :=
        match s2 with
        | String "." r =>
            let '(m, k, r') := digits r n 0%Z in
            if (k =? 0)%Z then (n, 0%Z, s2, false) else (m, k, r', true)
        | _ => (n, 0%Z, s2, false)
        end in
      let '(ex, s4, has_exp) :=
        match s3 with
        | String c r =>
            if (c =? "e") || (c =? "E") then
              let '(sgn, r1) := match r with
                                | String "-" r' => ((-1)%Z, r')
                                | String "+" r' => (1%Z, r')
                                | _ => (1%Z, r)
                                end in
              let '(x, k, r2) := digits r1 0%N 0%Z in
              if (k =? 0)%Z then (0%Z, s3, false) else ((sgn * Z.of_N x)%Z, r2, true)
            else (0%Z, s3, false)
        | EmptyString => (0%Z, s3, false)
        end in
      if has_frac || has_exp
      then Parsed (PyFloat (FDec neg m (ex - fracn))) s4
      else if (max_digits <? len)%Z then Stop TooManyDigits
      else Parsed (PyInt (if neg then - Z.of_N n else Z.of_N n)) s4
  end.

(** [s] starts with [p]: the rest of [s]. *)
Fixpoint strip (p s : string) : option string :=
  match p, s with
  | EmptyString, _ => Some s
  | String a p', String b s' => if a =? b then strip p' s' else None
  | String _ _, EmptyString => None
  end.

Definition constant (s : string) : parse pyvalue :=
  match strip "NaN" s with
  | Some r => Parsed (PyFloat FNaN) r
  | None =>
      match strip "Infinity" s with
      | Some r => Parsed (PyFloat (FInf false)) r
      | None =>
          match strip "-Infinity" s with
          | Some r => Parsed (PyFloat (FInf true)) r
          | None => Bad
          end
      end
  end.

Definition literal (max_digits : Z) (s : string) : parse pyvalue :=
  match strip "null" s with
  | Some r => Parsed PyNone r
  | None =>
      match strip "true" s with
      | Some r => Parsed (PyBool true) r
      | None =>
          match strip "false" s with
          | Some r => Parsed (PyBool false) r
          | None =>
              match number max_digits s with
              | Bad => constant s
              | x => x
              end
          end
      end
  end.

Definition string_value (r : string) : parse string :=
  match scanstring (S (String.length r)) r with
  | Some (str, rest) => Parsed str rest
  | None => Bad
  end.

Section Scanner.

(** How many digits an integer literal may have. *)
Variable max_digits : Z.

(** [scan_once] reads one value; [array_items] and [object_items]
    read what follows an opening bracket up to the closing one.
    [room] is the number of nested arrays and objects the interpreter
    can still enter; entering one more is the fault [TooDeep]. *)
Fixpoint scan_once (fuel room : nat) (s : string) : parse pyvalue :=
  match fuel with
  | O => Bad
  | S fuel' =>
      match s with
      | String "034" r =>
          match string_value r with
          | Parsed str rest => Parsed (PyStr str) rest
          | Bad => Bad
          | Stop f => Stop f
          end
      | String "[" r =>
          match room with
          | O => Stop TooDeep
          | S room' =>
              match skip_ws r with
              | String "]" rest => Parsed (PyList []) rest
              | r' =>
                  match array_items fuel' room' r' with
                  | Parsed l rest => Parsed (PyList l) rest
                  | Bad => Bad
                  | Stop f => Stop f
                  end
              end
          end
      | String "{" r =>
          match room with
          | O => Stop TooDeep
          | S room' =>
              match skip_ws r with
              | String "}" rest => Parsed (PyDict ∅) rest
              | r' =>
                  match object_items fuel' room' r' ∅ with
                  | Parsed d rest => Parsed (PyDict d) rest
                  | Bad => Bad
                  | Stop f => Stop f
                  end
              end
          end
      | _ => literal max_digits s
      end
  end
with array_items (fuel room : nat) (s : string) : parse (list pyvalue) :=
  match fuel with
  | O => Bad
  | S fuel' =>
      match scan_once fuel' room s with
      | Parsed v r =>
          match skip_ws r with
          | String "]" rest => Parsed [v] rest
          | String "," r' =>
              match array_items fuel' room (skip_ws r') with
              | Parsed l rest => Parsed (v :: l) rest
              | Bad => Bad
              | Stop f => Stop f
              end
          | _ => Bad
          end
      | Bad => Bad
      | Stop f => Stop f
      end
  end
with object_items (fuel room : nat) (s : string) (d : gmap string pyvalue)
  : parse (gmap string pyvalue) :=
  match fuel with
  | O => Bad
  | S fuel' =>
      match s with
      | String "034" r =>
          match string_value r with
          | Parsed key r1 =>
              match skip_ws r1 with
              | String ":" r2 =>
                  match scan_once fuel' room (skip_ws r2) with
                  | Parsed v r3 =>
                      match skip_ws r3 with
                      | String "}" rest => Parsed (<[key:=v]> d) rest
                      | String "," r4 =>
                          object_items fuel' room (skip_ws r4) (<[key:=v]> d)
                      | _ => Bad
                      end
                  | Bad => Bad
                  | Stop f => Stop f
                  end
              | _ => Bad
              end
          | Bad => Bad
          | Stop f => Stop f
          end
      | _ => Bad
      end
  end.

(** [json.loads(s)] in an interpreter with room for [room] nested
    values. *)
Definition decode (room : nat) (s : string) : decoded :=
  match scan_once (2 * String.length s + 2) room (skip_ws s) with
  | Parsed v rest =>
      match skip_ws rest with
      | EmptyString => Decoded v
      | String _ _ => Malformed
      end
  | Bad => Malformed
  | Stop f => Faulted f
  end.

End Scanner.

(** [json.loads] with the interpreter's default limits: integers of at
    most 4300 digits, and the default recursion limit of 1000 as the
    room for nesting (a call made deeper in the stack has less). *)
Definition loads : string -> decoded := decode 4300 1000.

End Json.

(** ** Configurations and processes *)

(** The path that a call made in world [w] resolves. *)
Definition configured_path (w : World) : Path :=
  match result (_get_access_key_path w None) with
  | Ok p => p
  | Raise _ => MkPath "access_key.json"
  end.

(** What [os.stat] finds at that path in [w]. *)
Definition config_entry (w : World) : option entry :=
  files w !! path_str (configured_path w).

(** What that path names in [w], when it names something. *)
Definition config_file (w : World) : option node :=
  match config_entry w with
  | Some (Present n) => Some n
  | _ => None
  end.

(** The paths a run touched on the file system. *)
Definition paths_used (t : list event) : list Path :=
  flat_map (fun ev => match ev with
                      | EvGetenv _ => []
                      | EvExists p => [p]
                      | EvReadText p => [p]
                      end) t.

Inductive call : Type :=
| Load
| Validate (provided_key : option string).

Section Process.

Variable decoder : string -> decoded.

(** The configuration file of [w] is a JSON object whose [access_key]
    field holds [v]. *)
Definition config_key (w : World) (v : pyvalue) : Prop :=
  exists t d, config_file w = Some (TextFile t)
              /\ decoder t = Decoded (PyDict d)
              /\ d !! "access_key" = Some v.

(** One call as its caller sees it ([validate_access_key] returns
    Python's [None]). *)
Definition exec (cl : call) : M pyvalue :=
  match cl with
  | Load => _load_access_key decoder
  | Validate k => validate_access_key decoder k;;; ret PyNone
  end.

(** A process: calls made one after the other, each in the world as it
    is at that moment; only the memo cell is carried over. *)
Fixpoint run (h : list (World * call)) (c : Cache) : list (Out pyvalue) :=
  match h with
  | [] => []
  | (w, cl) :: h' => let o := exec cl w c in o :: run h' (cache_after o)
  end.

Fixpoint final_cache (h : list (World * call)) (c : Cache) : Cache :=
  match h with
  | [] => c
  | (w, cl) :: h' => final_cache h' (cache_after (exec cl w c))
  end.

End Process.

(** ** Concrete worlds *)

Definition quoted (s : string) : string :=
  String "034" (s ++ String "034" EmptyString).

(** The text of a configuration object with one field. *)
Definition object_text (field value : string) : string :=
  "{" ++ quoted field ++ ": " ++ value ++ "}".

(** A world without the override variable and with one node at the
    default path. *)
Definition world_default (n : node) : World :=
  {| environ := ∅; files := {[ "access_key.json" := Present n ]} |}.

(** A world whose override variable is [p] and whose only node is at
    [p]. *)
Definition world_override (p : string) (n : node) : World :=
  {| environ := {[ "CHAT_ACCESS_KEY_PATH" := p ]};
     files := {[ path_str (MkPath p) := Present n ]} |}.

(** A world with neither variable nor files. *)
Definition world_empty : World := {| environ := ∅; files := ∅ |}.

Definition world_abc : World :=
  world_default (TextFile (object_text "access_key" (quoted "abc"))).

(** ** Evaluation lemmas *)

Definition ev_getenv : event := EvGetenv "CHAT_ACCESS_KEY_PATH".

Lemma get_access_key_path_eval (w : World) (c : Cache) :
  _get_access_key_path w c = MkOut (Ok (configured_path w)) c [ev_getenv].
Proof.
  unfold configured_path, _get_access_key_path, bind, getenv; simpl.
  destruct (environ w !! "CHAT_ACCESS_KEY_PATH") as [p|]; simpl; [|reflexivity].
  destruct (String.eqb p EmptyString); reflexivity.
Qed.

Lemma configured_path_environ (w w' : World) :
  environ w' !! "CHAT_ACCESS_KEY_PATH" = environ w !! "CHAT_ACCESS_KEY_PATH" ->
  configured_path w' = configured_path w.
Proof.
  intros H. unfold configured_path, _get_access_key_path, bind, getenv; simpl.
  rewrite H. destruct (environ w !! "CHAT_ACCESS_KEY_PATH") as [p|]; simpl; [|reflexivity].
  destruct (String.eqb p EmptyString); reflexivity.
Qed.

Section Evaluation.

Variable decoder : string -> decoded.

(** The loader body, path by path. *)
Lemma load_body_eval (w : World) (c : Cache) :
  let p := configured_path w in
  _load_access_key_body decoder w c =
  match config_entry w with
  | None =>
      MkOut (Raise (HTTPException 500 "Access key file not found on the server."))
        c [ev_getenv; EvExists p]
  | Some (StatFails e) =>
      MkOut (Raise (stat_exn e (path_str p))) c [ev_getenv; EvExists p]
  | Some (Present n) =>
      MkOut
        match n with
        | Directory => Raise (IsADirectoryError (path_str p))
        | Unreadable => Raise (PermissionError (path_str p))
        | Undecodable => Raise UnicodeDecodeError
        | TextFile t =>
            match decoder t with
            | Malformed => Raise (HTTPException 500 "Invalid access key JSON configuration.")
            | Faulted f => Raise (fault_exn f)
            | Decoded (PyDict d) =>
                let key := default PyNone (d !! "access_key") in
                if truthy key then Ok key
                else Raise (HTTPException 500 "Access key missing in configuration.")
            | Decoded v => Raise (AttributeError (type_name v) "get")
            end
        end
        c [ev_getenv; EvExists p; EvReadText p]
  end.
Proof.
  intros p. unfold _load_access_key_body, config_entry.
  unfold bind at 1. rewrite get_access_key_path_eval. fold p.
  unfold bind, try_except, exists_, read_text, json_loads.
  destruct (files w !! path_str p) as [[[| | |t]|e]|]; cbn; try reflexivity.
  destruct (decoder t) as [v| |f]; cbn; [|reflexivity|destruct f; reflexivity].
  destruct v; cbn; try reflexivity.
  destruct (truthy (default PyNone (d !! "access_key"))); reflexivity.
Qed.

Lemma config_file_Some (w : World) (n : node) :
  config_file w = Some n <-> config_entry w = Some (Present n).
Proof.
  unfold config_file.
  destruct (config_entry w) as [[n'|e]|]; split; congruence.
Qed.

End Evaluation.

(** Case analysis along the branches of the loader body: what is at the
    resolved path, what the decoder makes of the text, what the field
    holds. *)
Ltac body_cases w decoder :=
  unfold config_file in *;
  destruct (config_entry w) as [[[| | |?t]|?se]|] eqn:?He; cbn;
  [ | | |
    destruct (decoder t) as [[| | | | | |?d]| |[|]] eqn:?Hd; cbn;
    [ | | | | | |
      destruct (d !! "access_key") as [?key|] eqn:?Hkey; cbn;
      [destruct (truthy key) eqn:?Htr; cbn|]
    | | | ]
  | destruct se; cbn
  | ].

Section Loader.

Variable decoder : string -> decoded.

(** With a value in the memo cell the loader is not run at all. *)
Lemma load_cached (w : World) (v : pyvalue) :
  _load_access_key decoder w (Some v) = MkOut (Ok v) (Some v) [].
Proof. reflexivity. Qed.

(** With an empty memo cell the call is the body, plus the store. *)
Lemma load_miss (w : World) :
  let o := _load_access_key_body decoder w None in
  _load_access_key decoder w None =
  MkOut (result o)
    match result o with Ok v => Some v | Raise _ => None end
    (trace o).
Proof.
  unfold _load_access_key, lru_cache; cbn.
  destruct (_load_access_key_body decoder w None) as [[v|e] c t]; reflexivity.
Qed.

Lemma load_config_key (w : World) (v : pyvalue) :
  config_key decoder w v -> truthy v = true ->
  _load_access_key decoder w None =
  MkOut (Ok v) (Some v)
    [ev_getenv; EvExists (configured_path w); EvReadText (configured_path w)].
Proof.
  intros (t & d & Hf & Hd & Hk) Hv. apply config_file_Some in Hf.
  rewrite load_miss, load_body_eval, Hf, Hd, Hk. cbn. rewrite Hv. reflexivity.
Qed.

(** A failing load was a miss, running the body, and stores nothing. *)
Lemma load_raise_inv (w : World) (c : Cache) (e : exn) :
  result (_load_access_key decoder w c) = Raise e ->
  c = None
  /\ result (_load_access_key_body decoder w None) = Raise e
  /\ cache_after (_load_access_key decoder w c) = None.
Proof.
  destruct c as [v|]; [discriminate|].
  rewrite load_miss. cbn.
  destruct (result (_load_access_key_body decoder w None)); [discriminate|].
  intros [= ->]. auto.
Qed.

(** The loader raises an [HTTPException] only with status 500. *)
Lemma load_body_http_500 (w : World) (c : Cache) (code : Z) (msg : string) :
  result (_load_access_key_body decoder w c) = Raise (HTTPException code msg) ->
  code = 500.
Proof.
  rewrite load_body_eval.
  body_cases w decoder; intros ?; simplify_eq; reflexivity.
Qed.

(** [validate_access_key] with a key that passes the first guard. *)
Lemma validate_eval (k : string) (w : World) (c : Cache) :
  k <> EmptyString ->
  let o := _load_access_key decoder w c in
  validate_access_key decoder (Some k) w c =
  MkOut
    match result o with
    | Ok expected =>
        if str_ne k expected
        then Raise (HTTPException 403 "Invalid access key.")
        else Ok tt
    | Raise e => Raise e
    end
    (cache_after o) (trace o).
Proof.
  intros Hk. unfold validate_access_key, truthy_opt.
  apply String.eqb_neq in Hk. rewrite Hk. cbn [negb].
  unfold bind. cbn zeta.
  destruct (_load_access_key decoder w c) as [[v|e] c1 t1]; [|reflexivity].
  cbn. destruct (str_ne k v); cbn; rewrite app_nil_r; reflexivity.
Qed.

(** [validate_access_key] against a configuration with a string key. *)
Lemma validate_config_eval (w : World) (c : Cache) (s k : string) :
  config_key decoder w (PyStr s) ->
  s <> EmptyString ->
  c = None \/ c = Some (PyStr s) ->
  k <> EmptyString ->
  validate_access_key decoder (Some k) w c =
  MkOut (if String.eqb k s then Ok tt
         else Raise (HTTPException 403 "Invalid access key."))
    (Some (PyStr s)) (trace (_load_access_key decoder w c)).
Proof.
  intros Hcfg Hs Hc Hk.
  rewrite validate_eval by assumption.
  assert (Hl : result (_load_access_key decoder w c) = Ok (PyStr s)
               /\ cache_after (_load_access_key decoder w c) = Some (PyStr s)).
  { destruct Hc as [-> | ->]; [|split; reflexivity].
    rewrite (load_config_key w (PyStr s) Hcfg).
    - split; reflexivity.
    - cbn. apply String.eqb_neq in Hs. rewrite Hs. reflexivity. }
  destruct Hl as [-> ->]. cbn [str_ne].
  destruct (String.eqb k s); reflexivity.
Qed.

End Loader.

(** Two facts about the decoder on one text say the same. *)
Ltac decoder_agree :=
  try match goal with
      | H1 : ?f ?t = Decoded ?a, H2 : ?f ?t = ?b |- _ =>
          rewrite H1 in H2; simplify_eq
      end.

(** Case analysis of an uncached load along the branches of the body. *)
Ltac load_cases w decoder :=
  rewrite load_miss, load_body_eval; body_cases w decoder.

(** ** The reference decoder on sample texts *)

Example loads_object :
  Json.loads (object_text "access_key" (quoted "abc"))
  = Decoded (PyDict {[ "access_key" := PyStr "abc" ]}).
Proof. vm_compute. reflexivity. Qed.

Example loads_duplicate_key :
  Json.loads ("{" ++ quoted "access_key" ++ ": 1, " ++ quoted "access_key" ++ ": [true, null]}")
  = Decoded (PyDict {[ "access_key" := PyList [PyBool true; PyNone] ]}).
Proof. vm_compute. reflexivity. Qed.

Example loads_numbers :
  Json.loads "[0, -7, 2.5e-3, -0.0, 1E5, NaN, -Infinity]"
  = Decoded (PyList [PyInt 0; PyInt (-7); PyFloat (FDec false 25 (-4));
                  PyFloat (FDec true 0 (-1)); PyFloat (FDec false 1 5);
                  PyFloat FNaN; PyFloat (FInf true)]).
Proof. vm_compute. reflexivity. Qed.

Example loads_escapes :
  Json.loads (quoted "a\\b\u0041\n")
  = Decoded (PyStr ("a\bA" ++ String "010" EmptyString)).
Proof. vm_compute. reflexivity. Qed.

Example loads_rejects :
  Json.loads "{not json}" = Malformed
  /\ Json.loads EmptyString = Malformed
  /\ Json.loads "[1,]" = Malformed
  /\ Json.loads "01" = Malformed
  /\ Json.loads "{} x" = Malformed
  /\ Json.loads ("{" ++ quoted "access_key" ++ ": 1,}") = Malformed.
Proof. vm_compute. repeat split. Qed.

Example loads_limits :
  Json.decode 4300 3 "[[[1]]]" = Decoded (PyList [PyList [PyList [PyInt 1]]])
  /\ Json.decode 4300 3 "[[[[1]]]]" = Faulted TooDeep
  /\ Json.decode 4300 3 "[[[[" = Faulted TooDeep
  /\ Json.decode 4300 3 "[[[" = Malformed
  /\ Json.decode 3 1000 "[123, 1234.0, 12e34]"
     = Decoded (PyList [PyInt 123; PyFloat (FDec false 12340 (-1));
                        PyFloat (FDec false 12 34)])
  /\ Json.decode 3 1000 "[123, -1234]" = Faulted TooManyDigits.
Proof. vm_compute. repeat split. Qed.

Example path_samples :
  MkPath "./key.json" = MkPath "key.json"
  /\ MkPath EmptyString = MkPath "."
  /\ map (fun s => path_str (MkPath s))
       ["access_key.json"; "a//b/./c/"; "/etc/chat/key.json"; "//srv/key"; "///srv/key";
        "../key.json"; "/"; EmptyString]
     = ["access_key.json"; "a/b/c"; "/etc/chat/key.json"; "//srv/key"; "/srv/key";
        "../key.json"; "/"; "."].
Proof. vm_compute. repeat split. Qed.

Example truthy_samples :
  map truthy [PyNone; PyBool false; PyInt 0; PyStr EmptyString; PyList []; PyDict ∅;
              PyFloat (FDec true 0 (-1)); PyFloat (FDec false 1 (-400))]
  = [false; false; false; false; false; false; false; false]
  /\ map truthy [PyBool true; PyInt 123; PyStr "0"; PyList [PyNone];
                 PyDict {[ "a" := PyNone ]}; PyFloat (FDec false 5 (-324)); PyFloat FNaN]
     = [true; true; true; true; true; true; true].
Proof. vm_compute. repeat split. Qed.

(** ** Path resolution *)

(** C7: resolvePath only reads the environment.  When
    CHAT_ACCESS_KEY_PATH is set to a non-empty value it returns that
    value as the path; when the variable is unset or empty it returns
    the fixed relative path access_key.json.  In both cases it leaves
    the memo cell alone, its only read is the environment variable (no
    existence check, no file access), and its outcome does not depend on
    the file system. *)
Theorem get_access_key_path_spec (w : World) (c : Cache) :
  let o := _get_access_key_path w c in
  (forall v, environ w !! "CHAT_ACCESS_KEY_PATH" = Some v -> v <> EmptyString ->
             result o = Ok (MkPath v))
  /\ (environ w !! "CHAT_ACCESS_KEY_PATH" = None
      \/ environ w !! "CHAT_ACCESS_KEY_PATH" = Some EmptyString ->
      result o = Ok (MkPath "access_key.json"))
  /\ cache_after o = c
  /\ trace o = [EvGetenv "CHAT_ACCESS_KEY_PATH"]
  /\ paths_used (trace o) = []
  /\ (forall fs, _get_access_key_path {| environ := environ w; files := fs |} c = o).
Proof.
  unfold _get_access_key_path, bind, getenv; cbn.
  split; [|split; [|split; [|split; [|split]]]].
  - intros v Hv Hne. rewrite Hv. cbn.
    apply String.eqb_neq in Hne. rewrite Hne. reflexivity.
  - intros [H|H]; rewrite H; reflexivity.
  - destruct (environ w !! _) as [p|]; cbn; [destruct (String.eqb p _)|]; reflexivity.
  - destruct (environ w !! _) as [p|]; cbn; [destruct (String.eqb p _)|]; reflexivity.
  - destruct (environ w !! _) as [p|]; cbn; [destruct (String.eqb p _)|]; reflexivity.
  - intros fs.
    destruct (environ w !! _) as [p|]; cbn; [destruct (String.eqb p _)|]; reflexivity.
Qed.

Lemma get_access_key_path_spec_witness :
  result (_get_access_key_path (world_override "/etc/chat/key.json" Directory) None)
  = Ok (MkPath "/etc/chat/key.json")
  /\ result (_get_access_key_path world_empty None) = Ok (MkPath "access_key.json")
  /\ result (_get_access_key_path (world_override EmptyString Directory) None)
     = Ok (MkPath "access_key.json").
Proof.
  split; [|split].
  - apply (proj1 (get_access_key_path_spec
                    (world_override "/etc/chat/key.json" Directory) None)
             "/etc/chat/key.json").
    + reflexivity.
    + discriminate.
  - apply (proj1 (proj2 (get_access_key_path_spec world_empty None))).
    left. reflexivity.
  - apply (proj1 (proj2 (get_access_key_path_spec
                           (world_override EmptyString Directory) None))).
    right. reflexivity.
Defined.

(** ** Validation *)

(** C3: for an absent (None) or empty provided key, validate raises the
    403 HTTPException with detail "Missing access key." before the
    loader is called: nothing is read, the memo cell is untouched, and
    the outcome is the same in every world and for every decoder, also
    when the configuration file is missing or invalid.  The detail
    differs from the mismatch detail "Invalid access key." while the
    status is the same 403, and every 403 that validate raises is one of
    these two. *)
Theorem validate_missing_key (decoder : string -> decoded) (w : World) (c : Cache) :
  let missing := HTTPException HTTP_403_FORBIDDEN "Missing access key." in
  let invalid := HTTPException HTTP_403_FORBIDDEN "Invalid access key." in
  validate_access_key decoder None w c = MkOut (Raise missing) c []
  /\ validate_access_key decoder (Some EmptyString) w c = MkOut (Raise missing) c []
  /\ missing <> invalid
  /\ is_auth_error missing = true /\ is_auth_error invalid = true
  /\ is_configuration_error missing = false
  /\ (forall k e, result (validate_access_key decoder k w c) = Raise e ->
                  is_auth_error e = true ->
                  if truthy_opt k then e = invalid else e = missing).
Proof.
  cbn zeta.
  split; [reflexivity|]. split; [reflexivity|]. split; [discriminate|].
  split; [reflexivity|]. split; [reflexivity|]. split; [reflexivity|].
  intros [k|] e; [|cbn; congruence].
  destruct (String.eqb_spec k EmptyString) as [->|Hk]; [cbn; congruence|].
  rewrite validate_eval by assumption.
  unfold truthy_opt. apply String.eqb_neq in Hk. rewrite Hk. cbn.
  destruct (result (_load_access_key decoder w c)) as [v|e'] eqn:Hl.
  - unfold HTTP_403_FORBIDDEN. destruct (str_ne k v); congruence.
  - intros [= ->] Ha.
    apply load_raise_inv in Hl as (_ & Hb & _).
    destruct e; try discriminate.
    apply load_body_http_500 in Hb. subst. discriminate.
Qed.

Lemma validate_missing_key_witness :
  let e := HTTPException 403 "Invalid access key." in
  result (validate_access_key Json.loads (Some "ABC") world_abc None) = Raise e
  /\ is_auth_error e = true
  /\ (if truthy_opt (Some "ABC") then e = HTTPException 403 "Invalid access key."
      else e = HTTPException 403 "Missing access key.").
Proof.
  cbn zeta.
  assert (H : result (validate_access_key Json.loads (Some "ABC") world_abc None)
              = Raise (HTTPException 403 "Invalid access key."))
    by (vm_compute; reflexivity).
  split; [exact H|]. split; [reflexivity|].
  exact (proj2 (proj2 (proj2 (proj2 (proj2 (proj2
           (validate_missing_key Json.loads world_abc None))))))
           (Some "ABC") _ H eq_refl).
Defined.

(** C1: for a configuration whose access_key field is the non-empty
    string s (so that loading succeeds), with the memo cell empty or
    already holding s, and for every non-empty provided key k:
    validate(k) returns normally if and only if k is the very string s
    (character by character, so case matters and nothing is normalised),
    and otherwise raises the 403 HTTPException "Invalid access key."
    With the secret abc, validate(abc) succeeds and validate(ABC) fails
    that way (see the instance below). *)
Theorem validate_exact_match (decoder : string -> decoded)
    (w : World) (c : Cache) (s k : string) :
  config_key decoder w (PyStr s) ->
  s <> EmptyString ->
  c = None \/ c = Some (PyStr s) ->
  k <> EmptyString ->
  let o := validate_access_key decoder (Some k) w c in
  (result o = Ok tt <-> k = s)
  /\ (k <> s -> result o = Raise (HTTPException 403 "Invalid access key."))
  /\ cache_after o = Some (PyStr s).
Proof.
  intros Hcfg Hs Hc Hk. cbn zeta.
  rewrite (validate_config_eval decoder w c s k Hcfg Hs Hc Hk). cbn [result cache_after].
  destruct (String.eqb_spec k s) as [->|Hne].
  - split; [tauto|]. split; [congruence|reflexivity].
  - split; [split; [discriminate|contradiction]|]. split; reflexivity.
Qed.

Lemma validate_exact_match_witness :
  result (validate_access_key Json.loads (Some "abc") world_abc None) = Ok tt
  /\ result (validate_access_key Json.loads (Some "ABC") world_abc None)
     = Raise (HTTPException 403 "Invalid access key.").
Proof.
  assert (Hcfg : config_key Json.loads world_abc (PyStr "abc")).
  { exists (object_text "access_key" (quoted "abc")), {[ "access_key" := PyStr "abc" ]}.
    split; [reflexivity|]. split; [vm_compute; reflexivity|reflexivity]. }
  split.
  - apply (validate_exact_match Json.loads world_abc None "abc" "abc");
      [exact Hcfg | discriminate | left; reflexivity | discriminate | reflexivity].
  - apply (validate_exact_match Json.loads world_abc None "abc" "ABC");
      [exact Hcfg | discriminate | left; reflexivity | discriminate | discriminate].
Defined.

(** ** Loading *)

(** C2 as first stated fails here: the default path holds the JSON
    text of an empty list, so the path exists and its contents are valid
    JSON, yet the call neither raises a 500 HTTPException nor returns a
    value. *)
Lemma load_access_key_list_config :
  let w := world_default (TextFile "[]") in
  let o := _load_access_key Json.loads w None in
  config_file w = Some (TextFile "[]")
  /\ Json.loads "[]" = Decoded (PyList [])
  /\ result o = Raise (AttributeError "list" "get")
  /\ is_configuration_error (AttributeError "list" "get") = false
  /\ (forall v, result o <> Ok v).
Proof.
  cbn zeta.
  assert (H : result (_load_access_key Json.loads (world_default (TextFile "[]")) None)
              = Raise (AttributeError "list" "get")) by (vm_compute; reflexivity).
  split; [reflexivity|]. split; [vm_compute; reflexivity|].
  split; [exact H|]. split; [reflexivity|].
  intros v. rewrite H. discriminate.
Qed.

(** C2 (amended): a loadSecret call that runs the loader (empty memo
    cell) raises a 500 HTTPException in exactly three cases, each with
    its own detail: the existence check reports the resolved path
    missing ("Access key file not found on the server."), the path is a
    readable text file that json.loads rejects as invalid JSON ("Invalid
    access key JSON configuration."), or json.loads returns a JSON
    object whose access_key field is absent or falsy ("Access key
    missing in configuration.").  When json.loads returns a JSON object
    whose access_key field is truthy, the call returns that field's
    value and stores it; and a call returns a value only in that case.
    In every other state (the existence check or the read fails,
    json.loads fails otherwise than by rejecting the text, the decoded
    value is not an object) the call raises an exception that is not an
    HTTPException. *)
Theorem load_access_key_cases (decoder : string -> decoded) (w : World) :
  let o := _load_access_key decoder w None in
  let http (detail : string) : res pyvalue := Raise (HTTPException 500 detail) in
  (result o = http "Access key file not found on the server."
   <-> config_entry w = None)
  /\ (result o = http "Invalid access key JSON configuration."
      <-> exists t, config_file w = Some (TextFile t) /\ decoder t = Malformed)
  /\ (result o = http "Access key missing in configuration."
      <-> exists t d, config_file w = Some (TextFile t)
                      /\ decoder t = Decoded (PyDict d)
                      /\ forall v, d !! "access_key" = Some v -> truthy v = false)
  /\ (forall e, result o = Raise e ->
        (exists code detail, e = HTTPException code detail) ->
        result o = http "Access key file not found on the server."
        \/ result o = http "Invalid access key JSON configuration."
        \/ result o = http "Access key missing in configuration.")
  /\ (forall v, config_key decoder w v -> truthy v = true ->
        result o = Ok v /\ cache_after o = Some v)
  /\ (forall v, result o = Ok v -> config_key decoder w v /\ truthy v = true).
Proof.
  cbn zeta. unfold config_key.
  split; [|split; [|split; [|split; [|split]]]].
  - load_cases w decoder; split; intros; simplify_eq; done.
  - load_cases w decoder; (split; [intros; simplify_eq; eauto|]);
      intros (? & ? & ?); simplify_eq; (done || congruence).
  - load_cases w decoder; (split; [intros; simplify_eq|]);
      try (intros (? & ? & ? & ? & Hall); simplify_eq; decoder_agree;
           try done; try congruence).
    + specialize (Hall _ Hkey). congruence.
    + exists t, d. repeat (split; [done|]). intros; simplify_eq. done.
    + exists t, d. repeat (split; [done|]). intros; simplify_eq.
  - load_cases w decoder; intros e ? (code & detail & ?); simplify_eq; auto.
  - load_cases w decoder; intros v (? & ? & ? & ? & ?) ?; simplify_eq;
      decoder_agree; try done; try congruence; try (split; congruence).
  - load_cases w decoder; intros v ?; simplify_eq. eauto 10.
Qed.

Lemma load_access_key_cases_witness :
  result (_load_access_key Json.loads world_empty None)
  = Raise (HTTPException 500 "Access key file not found on the server.")
  /\ result (_load_access_key Json.loads (world_default (TextFile "{not json}")) None)
     = Raise (HTTPException 500 "Invalid access key JSON configuration.")
  /\ result (_load_access_key Json.loads
               (world_default (TextFile (object_text "access_key" (quoted EmptyString)))) None)
     = Raise (HTTPException 500 "Access key missing in configuration.")
  /\ result (_load_access_key Json.loads world_abc None) = Ok (PyStr "abc").
Proof.
  split; [|split; [|split]].
  - apply (proj1 (load_access_key_cases Json.loads world_empty)). reflexivity.
  - apply (proj1 (proj2 (load_access_key_cases Json.loads
                           (world_default (TextFile "{not json}"))))).
    exists "{not json}". split; [reflexivity | vm_compute; reflexivity].
  - apply (proj1 (proj2 (proj2 (load_access_key_cases Json.loads
             (world_default (TextFile (object_text "access_key" (quoted EmptyString)))))))).
    exists (object_text "access_key" (quoted EmptyString)),
           {[ "access_key" := PyStr EmptyString ]}.
    split; [reflexivity|]. split; [vm_compute; reflexivity|].
    intros v Hv. vm_compute in Hv. injection Hv as <-. reflexivity.
  - apply (proj1 (proj2 (proj2 (proj2 (proj2
             (load_access_key_cases Json.loads world_abc))))) (PyStr "abc")).
    + exists (object_text "access_key" (quoted "abc")), {[ "access_key" := PyStr "abc" ]}.
      split; [reflexivity|]. split; [vm_compute; reflexivity | reflexivity].
    + reflexivity.
Defined.

(** C8 as first stated fails here: the access_key field is the number
    123 and the provided key is the empty string; the load succeeds with
    the number, and validate fails with the missing-key detail, not with
    "Invalid access key." *)
Lemma validate_empty_key_number_config :
  let w := world_default (TextFile (object_text "access_key" "123")) in
  result (_load_access_key Json.loads w None) = Ok (PyInt 123)
  /\ result (validate_access_key Json.loads (Some EmptyString) w None)
     = Raise (HTTPException 403 "Missing access key.")
  /\ result (validate_access_key Json.loads (Some EmptyString) w (Some (PyInt 123)))
     <> Raise (HTTPException 403 "Invalid access key.").
Proof.
  cbn zeta. split; [vm_compute; reflexivity|]. split; [reflexivity|discriminate].
Qed.

(** C8 (amended): loadSecret does not check that the access_key field
    is a string.  For a configuration whose access_key field is a truthy
    value that is not a string, the load succeeds, returns that value
    and stores it; from then on (and already on a first call in that
    world) validate raises the 403 HTTPException "Invalid access key."
    for every non-empty string, in every later world. *)
Theorem load_non_string_key (decoder : string -> decoded) (w : World) (v : pyvalue) :
  config_key decoder w v ->
  truthy v = true ->
  (forall s, v <> PyStr s) ->
  let o := _load_access_key decoder w None in
  result o = Ok v
  /\ cache_after o = Some v
  /\ forall k, k <> EmptyString ->
       result (validate_access_key decoder (Some k) w None)
       = Raise (HTTPException 403 "Invalid access key.")
       /\ forall w', result (validate_access_key decoder (Some k) w' (cache_after o))
                     = Raise (HTTPException 403 "Invalid access key.").
Proof.
  intros Hcfg Hv Hns. cbn zeta.
  rewrite (load_config_key decoder w v Hcfg Hv). cbn [result cache_after].
  split; [reflexivity|]. split; [reflexivity|].
  assert (Hne : forall k, str_ne k v = true).
  { intros k. destruct v; try reflexivity. destruct (Hns s). reflexivity. }
  intros k Hk. split; [|intros w'];
    rewrite validate_eval by assumption.
  - rewrite (load_config_key decoder w v Hcfg Hv). cbn. rewrite Hne. reflexivity.
  - rewrite load_cached. cbn. rewrite Hne. reflexivity.
Qed.

Lemma load_non_string_key_witness :
  let w := world_default (TextFile (object_text "access_key" "123")) in
  result (_load_access_key Json.loads w None) = Ok (PyInt 123)
  /\ result (validate_access_key Json.loads (Some "123") w None)
     = Raise (HTTPException 403 "Invalid access key.").
Proof.
  cbn zeta.
  assert (Hcfg : config_key Json.loads
                   (world_default (TextFile (object_text "access_key" "123"))) (PyInt 123)).
  { exists (object_text "access_key" "123"), {[ "access_key" := PyInt 123 ]}.
    split; [reflexivity|]. split; [vm_compute; reflexivity | reflexivity]. }
  pose proof (load_non_string_key Json.loads _ (PyInt 123) Hcfg eq_refl
                ltac:(discriminate)) as T.
  cbn zeta in T. destruct T as (T1 & _ & T3).
  split; [exact T1|].
  apply (T3 "123"). discriminate.
Defined.

(** C9: when the configuration file is readable text that decodes as
    JSON to a value that is not an object (a list, a string, a number,
    true, false or null), a load that runs the loader raises
    AttributeError from the field lookup: it is neither a 500
    HTTPException (in particular not "Invalid access key JSON
    configuration.") nor a 403 one, not an HTTPException at all, and
    nothing is stored. *)
Theorem load_non_object (decoder : string -> decoded)
    (w : World) (t : string) (v : pyvalue) :
  config_file w = Some (TextFile t) ->
  decoder t = Decoded v ->
  (forall d, v <> PyDict d) ->
  let o := _load_access_key decoder w None in
  let e := AttributeError (type_name v) "get" in
  result o = Raise e
  /\ result (_load_access_key_body decoder w None) = Raise e
  /\ is_configuration_error e = false
  /\ is_auth_error e = false
  /\ (forall code detail, result o <> Raise (HTTPException code detail))
  /\ cache_after o = None.
Proof.
  intros Hf Hd Hnd. cbn zeta. apply config_file_Some in Hf.
  rewrite load_miss, load_body_eval, Hf, Hd. cbn [result cache_after trace].
  destruct v; try (repeat (split; [reflexivity|]); split; [discriminate|reflexivity]).
  destruct (Hnd d). reflexivity.
Qed.

Lemma load_non_object_witness :
  result (_load_access_key Json.loads
            (world_default (TextFile ("[" ++ quoted "abc" ++ "]"))) None)
  = Raise (AttributeError "list" "get")
  /\ result (_load_access_key Json.loads (world_default (TextFile (quoted "abc"))) None)
     = Raise (AttributeError "str" "get").
Proof.
  split.
  - apply (load_non_object Json.loads _ ("[" ++ quoted "abc" ++ "]") (PyList [PyStr "abc"]));
      [reflexivity | vm_compute; reflexivity | discriminate].
  - apply (load_non_object Json.loads _ (quoted "abc") (PyStr "abc"));
      [reflexivity | vm_compute; reflexivity | discriminate].
Defined.

(** C10: when the resolved path exists but is not a readable text file
    (a directory, a file the process may not read, a file whose bytes do
    not decode), a load that runs the loader passes the existence check
    and then fails in the read with IsADirectoryError, PermissionError
    or UnicodeDecodeError: none of them is caught by the handler for
    JSONDecodeError, none is a 500 or 403 HTTPException, and nothing is
    stored. *)
Theorem load_unreadable (decoder : string -> decoded) (w : World) (n : node) :
  config_file w = Some n ->
  (forall t, n <> TextFile t) ->
  let p := configured_path w in
  let o := _load_access_key decoder w None in
  result (exists_ p w None) = Ok true
  /\ (exists e, result (read_text p w None) = Raise e
                /\ result o = Raise e
                /\ catches_JSONDecodeError e = false
                /\ is_configuration_error e = false
                /\ is_auth_error e = false
                /\ (e = IsADirectoryError (path_str p)
                    \/ e = PermissionError (path_str p)
                    \/ e = UnicodeDecodeError))
  /\ trace o = [ev_getenv; EvExists p; EvReadText p]
  /\ cache_after o = None.
Proof.
  intros Hf Hn. cbn zeta. apply config_file_Some in Hf.
  rewrite load_miss, load_body_eval, Hf. unfold exists_, read_text.
  unfold config_entry in Hf. rewrite Hf. cbn [result cache_after trace].
  split; [reflexivity|].
  destruct n as [| | |t]; [| | |destruct (Hn t); reflexivity];
    (split; [|split; reflexivity]);
    eexists; (split; [reflexivity|]); repeat (split; [reflexivity|]); auto.
Qed.

Lemma load_unreadable_witness :
  result (_load_access_key Json.loads (world_default Directory) None)
  = Raise (IsADirectoryError "access_key.json")
  /\ result (_load_access_key Json.loads (world_override "/srv/key.json" Undecodable) None)
     = Raise UnicodeDecodeError.
Proof.
  split.
  - destruct (proj1 (proj2 (load_unreadable Json.loads (world_default Directory) Directory
                              eq_refl ltac:(discriminate))))
      as (e & Hread & Hload & _).
    vm_compute in Hread. injection Hread as <-. exact Hload.
  - destruct (proj1 (proj2 (load_unreadable Json.loads
                              (world_override "/srv/key.json" Undecodable) Undecodable
                              eq_refl ltac:(discriminate))))
      as (e & Hread & Hload & _).
    vm_compute in Hread. injection Hread as <-. exact Hload.
Defined.

(** ** Processes: the memo cell over a sequence of calls *)

Section History.

Variable decoder : string -> decoded.

Lemma load_ok_cache (w : World) (c : Cache) (v : pyvalue) :
  result (_load_access_key decoder w c) = Ok v ->
  cache_after (_load_access_key decoder w c) = Some v.
Proof.
  destruct c as [v'|].
  - rewrite load_cached. cbn. congruence.
  - rewrite load_miss. cbn.
    destruct (result (_load_access_key_body decoder w None)); congruence.
Qed.

Lemma validate_none_eval (w : World) (c : Cache) :
  validate_access_key decoder None w c
  = MkOut (Raise (HTTPException 403 "Missing access key.")) c [].
Proof. reflexivity. Qed.

Lemma validate_empty_eval (w : World) (c : Cache) :
  validate_access_key decoder (Some EmptyString) w c
  = MkOut (Raise (HTTPException 403 "Missing access key.")) c [].
Proof. reflexivity. Qed.

(** The three shapes of a provided key. *)
Lemma provided_key_cases (k : option string) :
  k = None \/ k = Some EmptyString \/ exists s, k = Some s /\ s <> EmptyString.
Proof.
  destruct k as [s|]; [|auto].
  destruct (String.eqb_spec s EmptyString) as [->|Hs]; eauto.
Qed.

Lemma exec_validate_eval (k : option string) (w : World) (c : Cache) :
  let o := validate_access_key decoder k w c in
  exec decoder (Validate k) w c =
  MkOut match result o with Ok _ => Ok PyNone | Raise e => Raise e end
    (cache_after o) (trace o).
Proof.
  cbn. unfold bind.
  destruct (validate_access_key decoder k w c) as [[[]|e] c1 t1]; cbn;
    [rewrite app_nil_r|]; reflexivity.
Qed.

(** On a filled memo cell no call reads anything or changes the cell,
    and its outcome is the same in every world. *)
Lemma exec_cached (cl : call) (w w' : World) (v : pyvalue) :
  let o := exec decoder cl w (Some v) in
  trace o = [] /\ cache_after o = Some v /\ exec decoder cl w' (Some v) = o.
Proof.
  destruct cl as [|k]; [cbn; auto|].
  cbn zeta. rewrite !exec_validate_eval.
  destruct (provided_key_cases k) as [-> | [-> | (s & -> & Hs)]].
  - rewrite !validate_none_eval. auto.
  - rewrite !validate_empty_eval. auto.
  - rewrite !validate_eval by assumption. rewrite !load_cached. auto.
Qed.

(** A call that fails with something else than a 403 failed in the
    loader and leaves the memo cell empty. *)
Lemma exec_load_failure (cl : call) (w : World) (c : Cache) (e : exn) :
  result (exec decoder cl w c) = Raise e ->
  is_auth_error e = false ->
  c = None
  /\ cache_after (exec decoder cl w c) = None
  /\ result (_load_access_key_body decoder w None) = Raise e
  /\ trace (exec decoder cl w c) = trace (_load_access_key_body decoder w None).
Proof.
  destruct cl as [|k].
  - cbn [exec]. intros He _.
    destruct (load_raise_inv decoder w c e He) as (-> & Hb & Hc).
    repeat (split; [done|]). rewrite load_miss. reflexivity.
  - rewrite exec_validate_eval.
    destruct (provided_key_cases k) as [-> | [-> | (s & -> & Hs)]].
    + rewrite validate_none_eval. cbn. intros [= <-]. discriminate.
    + rewrite validate_empty_eval. cbn. intros [= <-]. discriminate.
    + rewrite validate_eval by assumption. cbn [result cache_after trace].
      destruct (result (_load_access_key decoder w c)) as [v|e'] eqn:Hl.
      * destruct (str_ne s v); [intros [= <-]; discriminate|discriminate].
      * intros [= ->] _.
        destruct (load_raise_inv decoder w c e Hl) as (-> & Hb & Hc).
        repeat (split; [done|]). rewrite load_miss. reflexivity.
Qed.

(** Every path a call touches is the one resolved in the world of that
    very call. *)
Lemma load_paths (w : World) (c : Cache) :
  Forall (eq (configured_path w)) (paths_used (trace (_load_access_key decoder w c))).
Proof.
  destruct c as [v|]; [constructor|].
  rewrite load_miss, load_body_eval.
  destruct (config_entry w) as [[n|e]|]; cbn; repeat constructor.
Qed.

Lemma exec_paths (cl : call) (w : World) (c : Cache) :
  Forall (eq (configured_path w)) (paths_used (trace (exec decoder cl w c))).
Proof.
  destruct cl as [|k]; [apply load_paths|].
  rewrite exec_validate_eval. cbn [trace].
  destruct (provided_key_cases k) as [-> | [-> | (s & -> & Hs)]].
  - constructor.
  - constructor.
  - rewrite validate_eval by assumption. apply load_paths.
Qed.

End History.

(** C5: once loadSecret has succeeded with a value, the memo cell holds
    that value and keeps it over every later sequence of calls, whatever
    the world is at each of them: every later call reads nothing (no
    environment, no file system), every later loadSecret returns that
    same value, and the outcome of every later call, validate included,
    is the same as in any other world, so that deleting or corrupting
    the configuration file changes nothing. *)
Theorem cached_secret_stable (decoder : string -> decoded)
    (w0 : World) (c0 : Cache) (v : pyvalue) :
  result (_load_access_key decoder w0 c0) = Ok v ->
  let c := cache_after (_load_access_key decoder w0 c0) in
  c = Some v
  /\ forall h : list (World * call),
       final_cache decoder h c = Some v
       /\ Forall2 (fun wc o =>
                     trace o = []
                     /\ cache_after o = Some v
                     /\ (wc.2 = Load -> result o = Ok v)
                     /\ forall w', exec decoder wc.2 w' (Some v) = o)
            h (run decoder h c)
       /\ forall h', h'.*2 = h.*2 -> run decoder h' c = run decoder h c.
Proof.
  intros Hok. cbn zeta. rewrite (load_ok_cache decoder w0 c0 v Hok).
  split; [reflexivity|].
  induction h as [|[w cl] h IH]; cbn [run final_cache].
  - split; [reflexivity|]. split; [constructor|].
    intros [|? ?]; [reflexivity|discriminate].
  - destruct (exec_cached decoder cl w w v) as (Ht & Hc & _).
    rewrite Hc. destruct IH as (IH1 & IH2 & IH3).
    split; [exact IH1|]. split.
    + constructor; [|exact IH2]. cbn [snd].
      split; [exact Ht|]. split; [exact Hc|]. split.
      * intros ->. reflexivity.
      * intros w'. apply (exec_cached decoder cl w w' v).
    + intros [|[w' cl'] h'] Heq; [discriminate|].
      cbn in Heq. injection Heq as -> Heq. cbn [run].
      destruct (exec_cached decoder cl w w' v) as (_ & _ & ->).
      rewrite Hc. f_equal. apply IH3. exact Heq.
Qed.

Lemma cached_secret_stable_witness :
  run Json.loads [(world_empty, Validate (Some "abc"));
                  (world_default (TextFile "{not json}"), Load)]
    (cache_after (_load_access_key Json.loads world_abc None))
  = [MkOut (Ok PyNone) (Some (PyStr "abc")) [];
     MkOut (Ok (PyStr "abc")) (Some (PyStr "abc")) []].
Proof.
  assert (Hok : result (_load_access_key Json.loads world_abc None) = Ok (PyStr "abc"))
    by (vm_compute; reflexivity).
  destruct (cached_secret_stable Json.loads world_abc None (PyStr "abc") Hok)
    as (_ & T).
  destruct (T [(world_abc, Validate (Some "abc")); (world_abc, Load)]) as (_ & _ & T3).
  rewrite (T3 [(world_empty, Validate (Some "abc"));
               (world_default (TextFile "{not json}"), Load)] eq_refl).
  vm_compute. reflexivity.
Defined.

(** C4: load failures are not memoized.  A loadSecret call that raises
    ran the loader on an empty memo cell and leaves the cell empty, so
    the next call runs the whole loader again in the world as it is
    then.  Over any sequence of calls that all fail in the loader (with
    a 500 or with any other error that is not a 403) the cell stays
    empty and each call performs the loader's reads afresh; once the
    configuration holds a non-empty string key, validate with that key
    succeeds in the same process. *)
Theorem load_failure_not_memoized (decoder : string -> decoded) :
  (forall w c e,
      result (_load_access_key decoder w c) = Raise e ->
      c = None
      /\ cache_after (_load_access_key decoder w c) = None
      /\ forall w', result (_load_access_key decoder w'
                              (cache_after (_load_access_key decoder w c)))
                    = result (_load_access_key_body decoder w' None)
                    /\ trace (_load_access_key decoder w'
                                (cache_after (_load_access_key decoder w c)))
                       = trace (_load_access_key_body decoder w' None))
  /\ (forall h : list (World * call),
        Forall (fun o => exists e, result o = Raise e /\ is_auth_error e = false)
          (run decoder h None) ->
        final_cache decoder h None = None
        /\ Forall2 (fun wc o =>
                      cache_after o = None
                      /\ trace o = trace (_load_access_key_body decoder wc.1 None)
                      /\ exists e, result o = Raise e
                                   /\ result (_load_access_key_body decoder wc.1 None)
                                      = Raise e)
             h (run decoder h None)
        /\ forall w s, config_key decoder w (PyStr s) -> s <> EmptyString ->
             result (validate_access_key decoder (Some s) w (final_cache decoder h None))
             = Ok tt).
Proof.
  split.
  - intros w c e He.
    destruct (load_raise_inv decoder w c e He) as (-> & _ & Hc).
    split; [reflexivity|]. split; [exact Hc|].
    intros w'. rewrite Hc, load_miss. split; reflexivity.
  - intros h Hall.
    assert (H : final_cache decoder h None = None
                /\ Forall2 (fun wc o =>
                      cache_after o = None
                      /\ trace o = trace (_load_access_key_body decoder wc.1 None)
                      /\ exists e, result o = Raise e
                                   /\ result (_load_access_key_body decoder wc.1 None)
                                      = Raise e)
                     h (run decoder h None)).
    { induction h as [|[w cl] h IH]; cbn [run final_cache] in *.
      - split; [reflexivity|constructor].
      - inversion Hall as [|o os (e & He & Hna) Hrest]; subst.
        destruct (exec_load_failure decoder cl w None e He Hna) as (_ & Hc & Hb & Ht).
        rewrite Hc in *. destruct (IH Hrest) as [IH1 IH2].
        split; [exact IH1|]. constructor; [|exact IH2].
        cbn [fst]. split; [exact Hc|]. split; [exact Ht|]. eauto. }
    destruct H as [H1 H2]. split; [exact H1|]. split; [exact H2|].
    intros w s Hcfg Hs. rewrite H1.
    rewrite (validate_config_eval decoder w None s s Hcfg Hs (or_introl eq_refl) Hs).
    cbn [result]. rewrite String.eqb_refl. reflexivity.
Qed.

Lemma load_failure_not_memoized_witness :
  let h := [(world_default (TextFile "{not json}"), Validate (Some "x"));
            (world_default Directory, Load)] in
  final_cache Json.loads h None = None
  /\ result (validate_access_key Json.loads (Some "abc") world_abc
               (final_cache Json.loads h None)) = Ok tt.
Proof.
  cbn zeta.
  destruct (proj2 (load_failure_not_memoized Json.loads)
              [(world_default (TextFile "{not json}"), Validate (Some "x"));
               (world_default Directory, Load)]) as (T1 & _ & T3).
  - constructor; [|constructor; [|constructor]].
    + exists (HTTPException 500 "Invalid access key JSON configuration.").
      split; [vm_compute; reflexivity | reflexivity].
    + exists (IsADirectoryError "access_key.json").
      split; [vm_compute; reflexivity | reflexivity].
  - split; [exact T1|].
    apply (T3 world_abc "abc"); [|discriminate].
    exists (object_text "access_key" (quoted "abc")), {[ "access_key" := PyStr "abc" ]}.
    split; [reflexivity|]. split; [vm_compute; reflexivity | reflexivity].
Defined.

(** C6 as first stated fails here: the first call is made without the
    override variable and without a file, and fails; the variable is
    then set to another path that holds a valid configuration.  The
    second call reads that other path, not the one resolved at the first
    call. *)
Lemma path_resolved_again_after_failure :
  let w1 := world_empty in
  let w2 := world_override "elsewhere.json"
              (TextFile (object_text "access_key" (quoted "abc"))) in
  let o1 := _load_access_key Json.loads w1 None in
  let o2 := _load_access_key Json.loads w2 (cache_after o1) in
  result o1 = Raise (HTTPException 500 "Access key file not found on the server.")
  /\ paths_used (trace o1) = [MkPath "access_key.json"]
  /\ paths_used (trace o2) = [MkPath "elsewhere.json"; MkPath "elsewhere.json"]
  /\ result o2 = Ok (PyStr "abc").
Proof.
  cbn zeta. split; [reflexivity|]. split; [reflexivity|].
  split; vm_compute; reflexivity.
Qed.

(** C6 (amended): the path is not kept between calls.  Every loadSecret
    call that runs the loader (every call while the memo cell is empty,
    retries after failures included) first reads CHAT_ACCESS_KEY_PATH
    and uses, for its existence check and its read, the path resolved in
    the world of that very call; a call on a filled memo cell resolves
    and reads nothing.  The resolved path depends on the variable only,
    so over a sequence of calls made while the variable keeps its value
    every call uses the same path. *)
Theorem path_resolved_per_load (decoder : string -> decoded) :
  (forall w, exists rest,
      trace (_load_access_key decoder w None)
      = EvGetenv "CHAT_ACCESS_KEY_PATH" :: EvExists (configured_path w) :: rest
      /\ Forall (eq (configured_path w)) (paths_used rest))
  /\ (forall w v, trace (_load_access_key decoder w (Some v)) = [])
  /\ (forall w w', environ w' !! "CHAT_ACCESS_KEY_PATH"
                   = environ w !! "CHAT_ACCESS_KEY_PATH" ->
                   configured_path w' = configured_path w)
  /\ (forall (h : list (World * call)) (c : Cache) (p : Path),
        Forall (fun wc => configured_path wc.1 = p) h ->
        Forall (fun o => Forall (eq p) (paths_used (trace o))) (run decoder h c)).
Proof.
  split; [|split; [|split]].
  - intros w. rewrite load_miss, load_body_eval.
    destruct (config_entry w) as [[n|e]|]; cbn; eexists; (split; [reflexivity|]);
      repeat constructor.
  - intros w v. reflexivity.
  - intros w w'. apply configured_path_environ.
  - induction h as [|[w cl] h IH]; intros c p Hall; cbn [run]; [constructor|].
    inversion Hall as [|? ? Hp Hrest]; subst. cbn [fst] in *.
    constructor; [apply exec_paths|].
    apply IH. exact Hrest.
Qed.

Lemma path_resolved_per_load_witness :
  configured_path (world_override "elsewhere.json" Directory)
  = configured_path (world_override "elsewhere.json"
                       (TextFile (object_text "access_key" (quoted "abc"))))
  /\ Forall (fun o => Forall (eq (MkPath "access_key.json")) (paths_used (trace o)))
       (run Json.loads [(world_empty, Load); (world_abc, Validate (Some "abc"))] None).
Proof.
  split.
  - apply (proj1 (proj2 (proj2 (path_resolved_per_load Json.loads)))). reflexivity.
  - apply (proj2 (proj2 (proj2 (path_resolved_per_load Json.loads)))).
    repeat constructor.
Defined.


(** ** Further properties of the three functions *)

Section Outcomes.

Variable decoder : string -> decoded.

(** An uncached load returns a value only for a JSON object whose
    [access_key] field is that value, and the value is truthy. *)
Lemma load_miss_ok_inv (w : World) (v : pyvalue) :
  result (_load_access_key decoder w None) = Ok v ->
  config_key decoder w v /\ truthy v = true.
Proof.
  unfold config_key. load_cases w decoder; intros ?; simplify_eq. eauto 10.
Qed.

(** What a load can never raise. *)
Lemma load_raise_kinds (w : World) (c : Cache) (e : exn) :
  result (_load_access_key decoder w c) = Raise e ->
  is_auth_error e = false
  /\ e <> JSONDecodeError
  /\ forall p, e <> FileNotFoundError p.
Proof.
  intros He. destruct (load_raise_inv decoder w c e He) as (_ & Hb & _).
  revert Hb. rewrite load_body_eval.
  body_cases w decoder; intros ?; simplify_eq; done.
Qed.

(** A successful validation compared the key with a loaded string. *)
Lemma validate_ok_load (k : option string) (w : World) (c : Cache) :
  result (validate_access_key decoder k w c) = Ok tt ->
  exists s, k = Some s /\ s <> EmptyString
            /\ result (_load_access_key decoder w c) = Ok (PyStr s).
Proof.
  destruct (provided_key_cases k) as [-> | [-> | (s & -> & Hs)]].
  - rewrite validate_none_eval. discriminate.
  - rewrite validate_empty_eval. discriminate.
  - rewrite validate_eval by assumption. cbn [result].
    destruct (result (_load_access_key decoder w c)) as [v|e]; [|discriminate].
    destruct v; cbn [str_ne]; try discriminate.
    destruct (String.eqb_spec s s0) as [->|]; [|discriminate].
    intros _. eauto.
Qed.

(** The memo cell after a call: unchanged, or filled by this call with
    a truthy value. *)
Lemma exec_cache_step (cl : call) (w : World) (c : Cache) :
  cache_after (exec decoder cl w c) = c
  \/ c = None /\ exists v, cache_after (exec decoder cl w c) = Some v
                           /\ truthy v = true.
Proof.
  assert (Hload : cache_after (_load_access_key decoder w c) = c
                  \/ c = None /\ exists v, cache_after (_load_access_key decoder w c) = Some v
                                           /\ truthy v = true).
  { destruct c as [v|]; [left; reflexivity|].
    destruct (result (_load_access_key decoder w None)) as [v|e] eqn:Hl.
    - right. split; [reflexivity|]. exists v.
      split; [apply load_ok_cache; exact Hl | apply (load_miss_ok_inv w v Hl)].
    - left. apply (load_raise_inv decoder w None e Hl). }
  destruct cl as [|k]; [exact Hload|].
  rewrite exec_validate_eval. cbn [cache_after].
  destruct (provided_key_cases k) as [-> | [-> | (s & -> & Hs)]].
  - left. reflexivity.
  - left. reflexivity.
  - rewrite validate_eval by assumption. exact Hload.
Qed.

(** A call sees of the world only the resolved path and what it names. *)
Lemma exec_frame (cl : call) (w w' : World) (c : Cache) :
  configured_path w' = configured_path w ->
  config_entry w' = config_entry w ->
  exec decoder cl w' c = exec decoder cl w c.
Proof.
  intros Hp Hf.
  assert (Hb : _load_access_key_body decoder w' None = _load_access_key_body decoder w None)
    by (rewrite !load_body_eval, Hp, Hf; reflexivity).
  assert (Hl : _load_access_key decoder w' c = _load_access_key decoder w c).
  { destruct c as [v|]; [reflexivity|]. rewrite !load_miss, Hb. reflexivity. }
  destruct cl as [|k]; [exact Hl|].
  rewrite !exec_validate_eval.
  destruct (provided_key_cases k) as [-> | [-> | (s & -> & Hs)]].
  - reflexivity.
  - reflexivity.
  - rewrite !validate_eval by assumption. rewrite Hl. reflexivity.
Qed.

End Outcomes.

(** X1: when the load fails, validate with a non-empty key raises the
    very exception of the load, unchanged, leaves the memo cell empty
    and performs exactly the reads of the loader body; that exception is
    never a 403, and the outcome is the same for every non-empty key, so
    a broken configuration answers alike to right and wrong keys. *)
Theorem validate_propagates_load_error (decoder : string -> decoded)
    (w : World) (c : Cache) (e : exn) (k : string) :
  k <> EmptyString ->
  result (_load_access_key decoder w c) = Raise e ->
  validate_access_key decoder (Some k) w c
  = MkOut (Raise e) None (trace (_load_access_key_body decoder w None))
  /\ is_auth_error e = false
  /\ forall k', k' <> EmptyString ->
       validate_access_key decoder (Some k') w c
       = validate_access_key decoder (Some k) w c.
Proof.
  intros Hk He.
  destruct (load_raise_inv decoder w c e He) as (-> & Hb & Hc).
  split; [|split].
  - rewrite validate_eval by assumption. rewrite He, Hc, load_miss. reflexivity.
  - apply (load_raise_kinds decoder w None e He).
  - intros k' Hk'. rewrite !validate_eval by assumption. rewrite He. reflexivity.
Qed.

Lemma validate_propagates_load_error_witness :
  validate_access_key Json.loads (Some "abc") world_empty None
  = MkOut (Raise (HTTPException 500 "Access key file not found on the server."))
      None [ev_getenv; EvExists (MkPath "access_key.json")].
Proof.
  apply (proj1 (validate_propagates_load_error Json.loads world_empty None
                  (HTTPException 500 "Access key file not found on the server.") "abc"
                  ltac:(discriminate) eq_refl)).
Defined.

(** X2: no call, load or validate, ever lets a JSONDecodeError escape
    (the handler turns each one into a 500 HTTPException), and within
    one state of the file system no call raises FileNotFoundError,
    because the read only happens after the existence check passed. *)
Theorem decode_error_never_escapes (decoder : string -> decoded)
    (cl : call) (w : World) (c : Cache) (e : exn) :
  result (exec decoder cl w c) = Raise e ->
  e <> JSONDecodeError /\ forall p, e <> FileNotFoundError p.
Proof.
  destruct cl as [|k].
  - cbn [exec]. intros He. apply (load_raise_kinds decoder w c e He).
  - rewrite exec_validate_eval.
    destruct (provided_key_cases k) as [-> | [-> | (s & -> & Hs)]].
    + rewrite validate_none_eval. cbn. intros [= <-]. split; [|intros p]; discriminate.
    + rewrite validate_empty_eval. cbn. intros [= <-]. split; [|intros p]; discriminate.
    + rewrite validate_eval by assumption. cbn [result].
      destruct (result (_load_access_key decoder w c)) as [v|e'] eqn:Hl.
      * destruct (str_ne s v); [|discriminate].
        intros [= <-]. split; [|intros p]; discriminate.
      * intros [= ->]. apply (load_raise_kinds decoder w c e Hl).
Qed.

Lemma decode_error_never_escapes_witness :
  HTTPException 500 "Invalid access key JSON configuration." <> JSONDecodeError.
Proof.
  apply (decode_error_never_escapes Json.loads (Validate (Some "x"))
           (world_default (TextFile "{not json}")) None).
  vm_compute. reflexivity.
Defined.

(** X3: validate returns normally only when the provided key is a
    non-empty string and the secret in the memo cell after the call is
    that very string; when the call started on an empty cell, that
    string is the access_key field of the configuration file. *)
Theorem validate_success_sound (decoder : string -> decoded)
    (k : option string) (w : World) (c : Cache) :
  result (validate_access_key decoder k w c) = Ok tt ->
  exists s, k = Some s
            /\ s <> EmptyString
            /\ cache_after (validate_access_key decoder k w c) = Some (PyStr s)
            /\ (c = None -> config_key decoder w (PyStr s))
            /\ (forall v, c = Some v -> v = PyStr s).
Proof.
  intros Hok. destruct (validate_ok_load decoder k w c Hok) as (s & -> & Hs & Hl).
  exists s. split; [reflexivity|]. split; [exact Hs|].
  split; [|split].
  - rewrite validate_eval by assumption. cbn [cache_after].
    apply load_ok_cache. exact Hl.
  - intros ->. apply (load_miss_ok_inv decoder w (PyStr s) Hl).
  - intros v ->. rewrite load_cached in Hl. cbn in Hl. congruence.
Qed.

Lemma validate_success_sound_witness :
  exists s, Some "abc" = Some s
            /\ s <> EmptyString
            /\ cache_after (validate_access_key Json.loads (Some "abc") world_abc None)
               = Some (PyStr s)
            /\ (@None pyvalue = None -> config_key Json.loads world_abc (PyStr s))
            /\ (forall v, @None pyvalue = Some v -> v = PyStr s).
Proof.
  apply (validate_success_sound Json.loads (Some "abc") world_abc None).
  vm_compute. reflexivity.
Defined.

(** X4: a validate call that fails with "Invalid access key." has
    loaded the secret all the same: the memo cell is filled afterwards
    with a value different from the provided string, and every later
    attempt with the same key, in whatever world, reads nothing and
    fails in the same way. *)
Theorem validate_invalid_memoizes (decoder : string -> decoded)
    (k : option string) (w : World) (c : Cache) :
  result (validate_access_key decoder k w c)
  = Raise (HTTPException 403 "Invalid access key.") ->
  exists s v, k = Some s
              /\ s <> EmptyString
              /\ cache_after (validate_access_key decoder k w c) = Some v
              /\ v <> PyStr s
              /\ forall w', validate_access_key decoder k w' (Some v)
                            = MkOut (Raise (HTTPException 403 "Invalid access key."))
                                (Some v) [].
Proof.
  destruct (provided_key_cases k) as [-> | [-> | (s & -> & Hs)]].
  - rewrite validate_none_eval. discriminate.
  - rewrite validate_empty_eval. discriminate.
  - rewrite validate_eval by assumption. cbn [result cache_after].
    destruct (result (_load_access_key decoder w c)) as [v|e] eqn:Hl.
    + destruct (str_ne s v) eqn:Hne; [intros _|discriminate].
      exists s, v. split; [reflexivity|]. split; [exact Hs|].
      split; [apply load_ok_cache; exact Hl|]. split.
      * intros ->. cbn in Hne. rewrite String.eqb_refl in Hne. discriminate.
      * intros w'. rewrite validate_eval by assumption.
        rewrite load_cached. cbn. rewrite Hne. reflexivity.
    + intros [= ->]. destruct (load_raise_kinds decoder w c _ Hl) as (Ha & _).
      discriminate Ha.
Qed.

Lemma validate_invalid_memoizes_witness :
  exists s v, Some "ABC" = Some s
              /\ s <> EmptyString
              /\ cache_after (validate_access_key Json.loads (Some "ABC") world_abc None)
                 = Some v
              /\ v <> PyStr s
              /\ forall w', validate_access_key Json.loads (Some "ABC") w' (Some v)
                            = MkOut (Raise (HTTPException 403 "Invalid access key."))
                                (Some v) [].
Proof.
  apply (validate_invalid_memoizes Json.loads (Some "ABC") world_abc None).
  vm_compute. reflexivity.
Defined.

(** X5: over every sequence of calls of a process that starts with an
    empty memo cell, in whatever worlds, the memo cell never holds a
    falsy value: after each call it is empty or holds a truthy value
    (never None, false, 0, an empty string, list or object). *)
Theorem cache_never_falsy (decoder : string -> decoded)
    (h : list (World * call)) :
  Forall (fun o => forall v, cache_after o = Some v -> truthy v = true)
    (run decoder h None)
  /\ forall v, final_cache decoder h None = Some v -> truthy v = true.
Proof.
  assert (H : forall c, (forall v, c = Some v -> truthy v = true) ->
              Forall (fun o => forall v, cache_after o = Some v -> truthy v = true)
                (run decoder h c)
              /\ forall v, final_cache decoder h c = Some v -> truthy v = true).
  { induction h as [|[w cl] h IH]; intros c Hc; cbn [run final_cache].
    - split; [constructor|exact Hc].
    - assert (Hc' : forall v, cache_after (exec decoder cl w c) = Some v -> truthy v = true).
      { destruct (exec_cache_step decoder cl w c) as [-> | (_ & v' & -> & Hv')];
          [exact Hc|].
        intros v [= <-]. exact Hv'. }
      destruct (IH _ Hc') as [IH1 IH2].
      split; [constructor; assumption|exact IH2]. }
  apply H. discriminate.
Qed.

Lemma cache_never_falsy_witness :
  truthy (PyStr "abc") = true.
Proof.
  apply (proj2 (cache_never_falsy Json.loads
                  [(world_empty, Load); (world_abc, Validate (Some "x"))])).
  vm_compute. reflexivity.
Defined.

(** X6: the reads of one call, load or validate, are one of three
    sequences: none at all; the environment variable and the existence
    check, when that check reports the resolved path missing or itself
    fails; or these two followed by one read of the file, when the path
    names something.  So a call reads the file at most once, never
    before the existence check and never when that check did not pass;
    and on a filled memo cell it reads nothing. *)
Theorem call_reads (decoder : string -> decoded)
    (cl : call) (w : World) (c : Cache) (v : pyvalue) :
  let p := configured_path w in
  let t := trace (exec decoder cl w c) in
  (t = []
   \/ (t = [EvGetenv "CHAT_ACCESS_KEY_PATH"; EvExists p]
       /\ (config_entry w = None
           \/ exists e, config_entry w = Some (StatFails e)
                        /\ result (exists_ p w c) = Raise (stat_exn e (path_str p))))
   \/ (t = [EvGetenv "CHAT_ACCESS_KEY_PATH"; EvExists p; EvReadText p]
       /\ is_Some (config_file w)
       /\ result (exists_ p w c) = Ok true))
  /\ trace (exec decoder cl w (Some v)) = [].
Proof.
  cbn zeta. split; [|apply (exec_cached decoder cl w w v)].
  assert (Hl : let t := trace (_load_access_key decoder w c) in
               t = []
               \/ (t = [ev_getenv; EvExists (configured_path w)]
                   /\ (config_entry w = None
                       \/ exists e, config_entry w = Some (StatFails e)
                                    /\ result (exists_ (configured_path w) w c)
                                       = Raise (stat_exn e (path_str (configured_path w)))))
               \/ (t = [ev_getenv; EvExists (configured_path w);
                        EvReadText (configured_path w)]
                   /\ is_Some (config_file w)
                   /\ result (exists_ (configured_path w) w c) = Ok true)).
  { destruct c as [v'|]; [left; reflexivity|].
    cbn zeta. rewrite load_miss, load_body_eval.
    unfold config_file, exists_. fold (config_entry w).
    destruct (config_entry w) as [[n|e]|]; cbn [trace result]; eauto 10. }
  destruct cl as [|k]; [exact Hl|].
  rewrite exec_validate_eval. cbn [trace].
  destruct (provided_key_cases k) as [-> | [-> | (s & -> & Hs)]].
  - left. reflexivity.
  - left. reflexivity.
  - rewrite validate_eval by assumption. exact Hl.
Qed.

(** X8: after one validate call has succeeded with the key k, in every
    later world a validate call succeeds if and only if it is given that
    same key k; whatever happens to the configuration file or to the
    environment variable cannot make another key pass or this key
    fail. *)
Theorem validate_after_success (decoder : string -> decoded)
    (k : string) (w : World) (c : Cache) :
  result (validate_access_key decoder (Some k) w c) = Ok tt ->
  forall (w' : World) (k' : option string),
    result (validate_access_key decoder k' w'
              (cache_after (validate_access_key decoder (Some k) w c))) = Ok tt
    <-> k' = Some k.
Proof.
  intros Hok w' k'.
  destruct (validate_ok_load decoder (Some k) w c Hok) as (s & [= <-] & Hs & Hl).
  rewrite validate_eval by assumption. cbn [cache_after].
  rewrite (load_ok_cache decoder w c (PyStr k) Hl).
  destruct (provided_key_cases k') as [-> | [-> | (s' & -> & Hs')]].
  - rewrite validate_none_eval. cbn. split; discriminate.
  - rewrite validate_empty_eval. cbn. split; [discriminate|congruence].
  - rewrite validate_eval by assumption. rewrite load_cached. cbn.
    destruct (String.eqb_spec s' k) as [->|Hne]; cbn.
    + split; reflexivity.
    + split; [discriminate|congruence].
Qed.

Lemma validate_after_success_witness :
  result (validate_access_key Json.loads (Some "abc") world_empty
            (cache_after (validate_access_key Json.loads (Some "abc") world_abc None)))
  = Ok tt.
Proof.
  apply (validate_after_success Json.loads "abc" world_abc None).
  - vm_compute. reflexivity.
  - reflexivity.
Defined.

(** X9: a call sees of the world only the value of CHAT_ACCESS_KEY_PATH
    and the node at the path resolved from it.  Two worlds in which the
    variable has the same value, or is unset in one and empty in the
    other, and in which that path names the same thing, give the same
    outcome, the same memo cell and the same reads for every call:
    other variables and other files are never looked at. *)
Theorem call_frame (decoder : string -> decoded)
    (cl : call) (w w' : World) (c : Cache) :
  environ w' !! "CHAT_ACCESS_KEY_PATH" = environ w !! "CHAT_ACCESS_KEY_PATH"
  \/ (truthy_opt (environ w' !! "CHAT_ACCESS_KEY_PATH") = false
      /\ truthy_opt (environ w !! "CHAT_ACCESS_KEY_PATH") = false) ->
  files w' !! path_str (configured_path w) = files w !! path_str (configured_path w) ->
  exec decoder cl w' c = exec decoder cl w c.
Proof.
  intros He Hf.
  assert (Hp : configured_path w' = configured_path w).
  { destruct He as [He | [He' He]]; [apply configured_path_environ; exact He|].
    unfold configured_path, _get_access_key_path, bind, getenv; cbn.
    destruct (environ w' !! "CHAT_ACCESS_KEY_PATH") as [s'|];
      destruct (environ w !! "CHAT_ACCESS_KEY_PATH") as [s|]; cbn in *;
      try rewrite He'; try rewrite He; reflexivity. }
  apply exec_frame; [exact Hp|].
  unfold config_entry. rewrite Hp. exact Hf.
Qed.

Lemma call_frame_witness :
  exec Json.loads (Validate (Some "abc"))
    {| environ := {[ "CHAT_ACCESS_KEY_PATH" := EmptyString; "HOME" := "/root" ]};
       files := <[ "notes.txt" := Present Directory ]> (files world_abc) |} None
  = exec Json.loads (Validate (Some "abc")) world_abc None.
Proof.
  apply (call_frame Json.loads (Validate (Some "abc")) world_abc).
  - right. split; reflexivity.
  - reflexivity.
Defined.

(** X10: when the existence check itself fails on the resolved path
    (os.stat fails for another reason than a missing path: no search
    permission, a name too long, an input/output error), a load that
    runs the loader raises that error, PermissionError or OSError: it is
    not the 500 "Access key file not found on the server." nor any other
    HTTPException, the file is not read, and nothing is stored. *)
Theorem load_stat_failure (decoder : string -> decoded) (w : World) (e : stat_error) :
  config_entry w = Some (StatFails e) ->
  let p := configured_path w in
  let o := _load_access_key decoder w None in
  result (exists_ p w None) = Raise (stat_exn e (path_str p))
  /\ result o = Raise (stat_exn e (path_str p))
  /\ (forall code detail, result o <> Raise (HTTPException code detail))
  /\ is_configuration_error (stat_exn e (path_str p)) = false
  /\ trace o = [EvGetenv "CHAT_ACCESS_KEY_PATH"; EvExists p]
  /\ cache_after o = None.
Proof.
  intros He. cbn zeta. rewrite load_miss, load_body_eval, He.
  unfold exists_. unfold config_entry in He. rewrite He. cbn [result cache_after trace].
  split; [reflexivity|]. split; [reflexivity|].
  split; [intros code detail; destruct e; discriminate|].
  split; [destruct e; reflexivity|]. split; reflexivity.
Qed.

Lemma load_stat_failure_witness :
  let w := {| environ := ∅; files := {[ "access_key.json" := StatFails ENAMETOOLONG ]} |} in
  result (_load_access_key Json.loads w None)
  = Raise (OSError ENAMETOOLONG "access_key.json")
  /\ result (validate_access_key Json.loads (Some "abc")
               {| environ := ∅; files := {[ "access_key.json" := StatFails EACCES ]} |} None)
     = Raise (PermissionError "access_key.json").
Proof.
  cbn zeta. split.
  - assert (He : config_entry
                   {| environ := ∅;
                      files := {[ "access_key.json" := StatFails ENAMETOOLONG ]} |}
                 = Some (StatFails ENAMETOOLONG)) by (vm_compute; reflexivity).
    apply (proj1 (proj2 (load_stat_failure Json.loads _ ENAMETOOLONG He))).
  - assert (He : config_entry
                   {| environ := ∅; files := {[ "access_key.json" := StatFails EACCES ]} |}
                 = Some (StatFails EACCES)) by (vm_compute; reflexivity).
    rewrite validate_eval by discriminate. cbn [result].
    rewrite (proj1 (proj2 (load_stat_failure Json.loads _ EACCES He))).
    reflexivity.
Defined.

(** X11: when json.loads fails on the contents of the configuration
    file otherwise than by rejecting them as malformed (values nested
    too deep: RecursionError; an integer literal with too many digits:
    ValueError), a load that runs the loader raises that error: the
    handler for JSONDecodeError does not catch it, it is not the 500
    "Invalid access key JSON configuration." nor any other
    HTTPException, and nothing is stored. *)
Theorem load_decoder_fault (decoder : string -> decoded)
    (w : World) (t : string) (f : decoder_fault) :
  config_file w = Some (TextFile t) ->
  decoder t = Faulted f ->
  let o := _load_access_key decoder w None in
  result o = Raise (fault_exn f)
  /\ catches_JSONDecodeError (fault_exn f) = false
  /\ (forall code detail, result o <> Raise (HTTPException code detail))
  /\ (fault_exn f = RecursionError \/ fault_exn f = ValueError)
  /\ cache_after o = None.
Proof.
  intros Hf Hd. cbn zeta. apply config_file_Some in Hf.
  rewrite load_miss, load_body_eval, Hf, Hd. cbn [result cache_after trace].
  destruct f; cbn; (split; [reflexivity|]); (split; [reflexivity|]);
    (split; [discriminate|]); (split; [auto|reflexivity]).
Qed.

Lemma load_decoder_fault_witness :
  result (_load_access_key (Json.decode 4300 3)
            (world_default (TextFile "[[[[1]]]]")) None)
  = Raise RecursionError
  /\ result (_load_access_key (Json.decode 3 1000)
               (world_default (TextFile (object_text "access_key" "1234"))) None)
     = Raise ValueError.
Proof.
  split.
  - apply (load_decoder_fault (Json.decode 4300 3) _ "[[[[1]]]]" TooDeep);
      [reflexivity | vm_compute; reflexivity].
  - apply (load_decoder_fault (Json.decode 3 1000) _
             (object_text "access_key" "1234") TooManyDigits);
      [reflexivity | vm_compute; reflexivity].
Defined.
